(** * Energy Audit Maroc: report store, prompt assembly and audit flows

    A shallow embedding of [app.py].  The script is a Streamlit page: each
    user interaction re-runs it from the top, so a page is modelled as one
    run, a function of the widget values, over an explicit world made of the
    file [history.json], the clock, the log of calls to the remote model
    and what the run wrote on the page. *)

From Stdlib Require Import String Ascii List Bool Arith ZArith Lia.
Import ListNotations.
Open Scope string_scope.

Set Warnings "-register-all".

(** ** Python values *)

(** The values [json.load] can return and [json.dump] can write.  A [dict]
    is an association list in insertion order, its keys pairwise distinct
    (every dict the script builds is a literal with distinct keys); JSON
    numbers are restricted to integers, the script computes with none. *)
Inductive value : Type :=
| VNone
| VBool (b : bool)
| VInt (z : Z)
| VStr (s : string)
| VList (items : list value)
| VDict (fields : list (string * value)).

Definition dict := list (string * value).

(** The double quote, for the messages that carry one. *)
Definition dq : string := String (ascii_of_nat 34) EmptyString.

Inductive exn : Type :=
| KeyError (key : string)
| TypeError (msg : string)
| AttributeError (msg : string)
| FileNotFoundError
| JSONDecodeError
| RemoteError (msg : string).

(** [str(e)] *)
Definition str_exn (e : exn) : string :=
  match e with
  | KeyError key => "'" ++ key ++ "'"
  | TypeError msg => msg
  | AttributeError msg => msg
  | FileNotFoundError => "[Errno 2] No such file or directory: 'history.json'"
  | JSONDecodeError => "Expecting value: line 1 column 1 (char 0)"
  | RemoteError msg => msg
  end.

Inductive outcome (A : Type) : Type :=
| Returned (a : A)
| Raised (e : exn).
Arguments Returned {A} a.
Arguments Raised {A} e.

Definition type_name (v : value) : string :=
  match v with
  | VNone => "NoneType"
  | VBool _ => "bool"
  | VInt _ => "int"
  | VStr _ => "str"
  | VList _ => "list"
  | VDict _ => "dict"
  end.

(** [d[key]] on the fields of a dict *)
Fixpoint lookup (key : string) (d : dict) : option value :=
  match d with
  | [] => None
  | (k, v) :: rest => if String.eqb k key then Some v else lookup key rest
  end.

(** [d.get(key, default)] *)
Definition dict_get (d : dict) (key : string) (default : value) : value :=
  match lookup key d with
  | Some v => v
  | None => default
  end.

(** [obj[key]] with a [str] key: a dict is looked up, every other type
    refuses a string subscript. *)
Definition getitem (obj : value) (key : string) : outcome value :=
  match obj with
  | VDict d =>
      match lookup key d with
      | Some v => Returned v
      | None => Raised (KeyError key)
      end
  | VStr _ => Raised (TypeError "string indices must be integers, not 'str'")
  | VList _ => Raised (TypeError "list indices must be integers or slices, not str")
  | _ => Raised (TypeError ("'" ++ type_name obj ++ "' object is not subscriptable"))
  end.

Fixpoint chars (s : string) : list value :=
  match s with
  | EmptyString => []
  | String c rest => VStr (String c EmptyString) :: chars rest
  end.

(** [for item in obj]: the elements of a list, the keys of a dict, the
    characters of a string; nothing else is iterable. *)
Definition iter (obj : value) : outcome (list value) :=
  match obj with
  | VList items => Returned items
  | VDict d => Returned (map (fun kv => VStr (fst kv)) d)
  | VStr s => Returned (chars s)
  | _ => Raised (TypeError ("'" ++ type_name obj ++ "' object is not iterable"))
  end.

(** [obj.insert(0, x)]: only a list has the method. *)
Definition insert0 (obj : value) (x : value) : outcome value :=
  match obj with
  | VList items => Returned (VList (x :: items))
  | _ => Raised (AttributeError
                   ("'" ++ type_name obj ++ "' object has no attribute 'insert'"))
  end.

(** [v != s] for a [str] s: a string differs from every value of another
    type. *)
Definition ne_str (v : value) (s : string) : bool :=
  match v with
  | VStr s' => negb (String.eqb s' s)
  | _ => true
  end.

(** [if s:] on a [str] *)
Definition truthy (s : string) : bool :=
  match s with
  | EmptyString => false
  | String _ _ => true
  end.

(** ** The clock *)

(** A reading of [datetime.datetime.now()], its fields as Python has them
    (a year of four digits, every other field of at most two). *)
Record datetime : Type := mkDatetime {
  year : nat; month : nat; day : nat;
  hour : nat; minute : nat; second : nat
}.

Definition digit (n : nat) : ascii := ascii_of_nat (48 + n mod 10).

Definition pad2 (n : nat) : string :=
  String (digit (n / 10)) (String (digit n) EmptyString).

Definition pad4 (n : nat) : string :=
  String (digit (n / 1000)) (String (digit (n / 100)) (pad2 n)).

Definition directive (c : ascii) (dt : datetime) : string :=
  match c with
  | "Y"%char => pad4 (year dt)
  | "m"%char => pad2 (month dt)
  | "d"%char => pad2 (day dt)
  | "H"%char => pad2 (hour dt)
  | "M"%char => pad2 (minute dt)
  | "S"%char => pad2 (second dt)
  | _ => String c EmptyString
  end.

(** [dt.strftime(fmt)], for the directives the script uses. *)
Fixpoint strftime (dt : datetime) (fmt : string) : string :=
  match fmt with
  | EmptyString => EmptyString
  | String c rest =>
      match c, rest with
      | "%"%char, String d rest' => directive d dt ++ strftime dt rest'
      | _, _ => String c (strftime dt rest)
      end
  end.

(** ** The world of one run *)

Definition image := string.

(** [history.json]: absent, present with content [json.load] rejects (or that
    cannot be read at all), or present with the JSON text of a value. *)
Inductive file_state : Type :=
| Missing
| Unparsable
| Holds (v : value).

(** What a run writes on the page. *)
Inductive element : Type :=
| Markdown (body : string)
| Success (body : string)
| Error (body : string)
| Info (body : string).

Record world : Type := mkWorld {
  history_json : file_state;
  ticks : nat;
  remote_calls : list (string * image);
  page_output : list element
}.

Definition with_file (f : file_state) (w : world) : world :=
  mkWorld f (ticks w) (remote_calls w) (page_output w).

(** ** Statements that may raise, over the world *)

Definition M (A : Type) : Type := world -> outcome A * world.

Definition ret {A} (a : A) : M A := fun w => (Returned a, w).

Definition bind {A B} (m : M A) (k : A -> M B) : M B :=
  fun w =>
    match m w with
    | (Returned a, w') => k a w'
    | (Raised e, w') => (Raised e, w')
    end.

Definition lift {A} (o : outcome A) : M A := fun w => (o, w).

(** [try: m  except ... as e: h e]; what [m] did before raising stays done. *)
Definition try_except {A} (m : M A) (h : exn -> M A) : M A :=
  fun w =>
    match m w with
    | (Returned a, w') => (Returned a, w')
    | (Raised e, w') => h e w'
    end.

Declare Scope py_scope.
Delimit Scope py_scope with py.
Notation "x <- m ;; k" := (bind m (fun x => k))
  (at level 61, m at next level, right associativity) : py_scope.
Notation "m ;;; k" := (bind m (fun _ => k))
  (at level 61, right associativity) : py_scope.
Open Scope py_scope.

(** [os.path.exists("history.json")] *)
Definition path_exists : M bool :=
  fun w => match history_json w with
           | Missing => (Returned false, w)
           | _ => (Returned true, w)
           end.

(** [with open("history.json", "r") as f: json.load(f)] *)
Definition json_load : M value :=
  fun w => match history_json w with
           | Missing => (Raised FileNotFoundError, w)
           | Unparsable => (Raised JSONDecodeError, w)
           | Holds v => (Returned v, w)
           end.

(** [with open("history.json", "w") as f: json.dump(v, f, indent=4)]: the
    file now holds the JSON text of [v], which decodes to [v]. *)
Definition json_dump (v : value) : M unit :=
  fun w => (Returned tt, with_file (Holds v) w).

Definition emit (e : element) : M unit :=
  fun w => (Returned tt,
            mkWorld (history_json w) (ticks w) (remote_calls w)
                    (page_output w ++ [e])).

(** ** Helper functions of the script *)

Section Helpers.

(** [datetime.datetime.now()] at the n-th reading of the clock. *)
Variable clock : nat -> datetime.

Definition now : M datetime :=
  fun w => (Returned (clock (ticks w)),
            mkWorld (history_json w) (S (ticks w)) (remote_calls w)
                    (page_output w)).

(** The dict literal [report_entry], its two timestamps being the two
    readings of the clock it makes. *)
Definition report_entry (t1 t2 : datetime) (report_data : dict) : value :=
  VDict [ ("id", VStr (strftime t1 "%Y%m%d%H%M%S"));
          ("date", VStr (strftime t2 "%Y-%m-%d %H:%M"));
          ("type", dict_get report_data "type" (VStr "Unknown"));
          ("summary", dict_get report_data "summary" (VStr "No summary"));
          ("full_report", dict_get report_data "full_report" (VStr EmptyString)) ].

Definition save_report_to_history (report_data : dict) : M unit :=
  exists_ <- path_exists ;;
  history <- (if exists_ : bool
              then try_except json_load (fun _ => ret (VList []))
              else ret (VList [])) ;;
  t1 <- now ;;
  t2 <- now ;;
  history' <- lift (insert0 history (report_entry t1 t2 report_data)) ;;
  json_dump history'.

Definition load_history : M value :=
  exists_ <- path_exists ;;
  if exists_ : bool
  then try_except json_load (fun _ => ret (VList []))
  else ret (VList []).

(** [[item for item in history if item["id"] != report_id]] *)
Fixpoint keep_other_ids (report_id : string) (items : list value)
  : outcome (list value) :=
  match items with
  | [] => Returned []
  | item :: rest =>
      match getitem item "id" with
      | Raised e => Raised e
      | Returned v =>
          match keep_other_ids report_id rest with
          | Raised e => Raised e
          | Returned kept =>
              Returned (if ne_str v report_id then item :: kept else kept)
          end
      end
  end.

(** [report_id] is a [str], as every id the script generates. *)
Definition delete_report (report_id : string) : M unit :=
  history <- load_history ;;
  items <- lift (iter history) ;;
  new_history <- lift (keep_other_ids report_id items) ;;
  json_dump (VList new_history).

End Helpers.

(** ** The remote model and the prompt *)

(** What [model.generate_content([full_prompt, image])] followed by
    [response.text] gives: the generated text, or an exception with its
    message (bad credential, network failure, blocked or empty response). *)
Inductive reply : Type :=
| Text (text : string)
| Failure (message : string).

Definition preamble : string :=
"
        You are an expert Energy Auditor in Morocco. 
        Your goal is to analyze energy bills and consumption based on Moroccan Norms (AMEE, ONEE).
        Currency is Moroccan Dirham (MAD). Voltage is 220V/380V.
        
        TASK:
        ".

Definition before_appliances : string :=
"
        
        ".

Definition closing : string :=
"
        
        Please provide the response in structured Markdown format with clear headings.
        Include specific recommendations for energy efficiency in Morocco.
        ".

Definition appliances_marker : string :=
  "ADDITIONAL DATA PROVIDED BY USER (Appliances):".

(** The replacement field
    [{marker + appliances_info if is_detailed else (empty)}] of the f-string:
    the conditional binds weaker than [+], so the concatenation is only
    evaluated in detailed mode, where [None] cannot be concatenated. *)
Definition appliances_section (is_detailed : bool)
    (appliances_info : option string) : outcome string :=
  if is_detailed then
    match appliances_info with
    | Some info => Returned (appliances_marker ++ info)
    | None =>
        Raised (TypeError ("can only concatenate str (not " ++ dq ++ "NoneType"
                           ++ dq ++ ") to str"))
    end
  else Returned EmptyString.

(** The f-string [full_prompt] of [analyze_image_with_gemini]. *)
Definition full_prompt (prompt : string) (is_detailed : bool)
    (appliances_info : option string) : outcome string :=
  match appliances_section is_detailed appliances_info with
  | Returned section =>
      Returned (preamble ++ prompt ++ before_appliances ++ section ++ closing)
  | Raised e => Raised e
  end.

Definition simple_prompt : string :=
"
                    1. Extract the total consumption (kWh).
                    2. Extract the total amount (MAD).
                    3. Identify the billing period.
                    4. Analyze if the consumption is high for a standard household in Morocco.
                    5. Provide 3 specific recommendations to reduce this bill.
                    ".

Definition detailed_prompt : string :=
"
                1. Extract total consumption (kWh) and cost (MAD) from the uploaded bill.
                2. Analyze the provided appliance list.
                3. Estimate the theoretical consumption of these appliances.
                4. Compare the theoretical consumption with the actual bill consumption.
                5. Identify discrepancies (e.g., hidden consumption, old appliances, insulation issues).
                6. Provide a detailed action plan to optimize energy use according to Moroccan standards.
                ".

Section Audit.

Variable clock : nat -> datetime.

(** The credential read at the top of the script (empty when the user has
    typed none) and the remote model behind it. *)
Variable api_key : string.
Variable model : string -> image -> reply.

(** [response = model.generate_content([full_prompt, image])] then
    [response.text]; the call is logged whether or not it succeeds. *)
Definition generate_content (prompt : string) (img : image) : M string :=
  fun w =>
    let w' := mkWorld (history_json w) (ticks w)
                      (remote_calls w ++ [(prompt, img)]) (page_output w) in
    match model prompt img with
    | Text text => (Returned text, w')
    | Failure message => (Raised (RemoteError message), w')
    end.

Definition analyze_image_with_gemini (img : image) (prompt : string)
    (is_detailed : bool) (appliances_info : option string) : M string :=
  if negb (truthy api_key) then ret "Error: API Key not provided."
  else
    try_except
      (p <- lift (full_prompt prompt is_detailed appliances_info) ;;
       generate_content p img)
      (fun e => ret ("Error during analysis: " ++ str_exn e)).

(** The result column of the Simple Audit page: [uploaded_file] is the
    file uploader's value, [clicked] whether the Analyze button, rendered
    only under an uploaded file, was pressed in this run. *)
Definition simple_audit_page (uploaded_file : option image)
    (clicked : bool) : M unit :=
  match uploaded_file with
  | Some img =>
      if clicked then
        result <- analyze_image_with_gemini img simple_prompt false None ;;
        emit (Markdown "### 📊 Report") ;;;
        emit (Markdown result) ;;;
        if truthy result then
          save_report_to_history clock
            [ ("type", VStr "Simple Audit");
              ("summary", VStr "Simple Bill Analysis");
              ("full_report", VStr result) ] ;;;
          emit (Success "Report saved to History!")
        else ret tt
      else ret tt
  | None => emit (Info "Please upload an image to start.")
  end.

(** The Generate button of the Detailed Audit page.  An uploaded file
    object is always truthy, so [not uploaded_file] holds exactly when the
    uploader is empty. *)
Definition detailed_audit_page (uploaded_file : option image)
    (appliance_info : string) (clicked : bool) : M unit :=
  if clicked then
    match uploaded_file with
    | Some img =>
        if truthy appliance_info then
          result <- analyze_image_with_gemini img detailed_prompt true
                      (Some appliance_info) ;;
          emit (Markdown "### 📊 Detailed Report") ;;;
          emit (Markdown result) ;;;
          if truthy result then
            save_report_to_history clock
              [ ("type", VStr "Detailed Audit");
                ("summary", VStr "Detailed Analysis with Appliances");
                ("full_report", VStr result) ] ;;;
            emit (Success "Detailed Report saved to History!")
          else ret tt
        else if negb (truthy appliance_info) then
          emit (Error "Please enter appliance information.")
        else ret tt
    | None => emit (Error "Please upload a bill image.")
    end
  else ret tt.

End Audit.

(** ** Vocabulary of the statements *)

(** The sequence the store stands for: what [save_report_to_history] takes as
    [history] before inserting.  A file holding JSON that is not an array
    stands for none. *)
Definition stored_sequence (f : file_state) : option (list value) :=
  match f with
  | Missing => Some []
  | Unparsable => Some []
  | Holds (VList items) => Some items
  | Holds _ => None
  end.

Definition has_id (e : value) : Prop := exists v, getitem e "id" = Returned v.

(** [item["id"] == report_id] *)
Definition matches (report_id : string) (e : value) : bool :=
  match getitem e "id" with
  | Returned v => negb (ne_str v report_id)
  | Raised _ => false
  end.

Definition others (report_id : string) (h : list value) : list value :=
  filter (fun e => negb (matches report_id e)) h.

Definition matching (report_id : string) (h : list value) : nat :=
  length (filter (matches report_id) h).

(** [x] occurs in [s], verbatim. *)
Definition contains (x s : string) : Prop :=
  exists pre post, s = pre ++ x ++ post.

Fixpoint starts_with (x s : string) : bool :=
  match x, s with
  | EmptyString, _ => true
  | String a x', String b s' => Ascii.eqb a b && starts_with x' s'
  | String _ _, EmptyString => false
  end.

Fixpoint occurs (x s : string) : bool :=
  starts_with x s ||
  match s with
  | EmptyString => false
  | String _ s' => occurs x s'
  end.

(** The analysis ends in one of the two error texts: there is no credential,
    or the remote call raised. *)
Definition failed (api_key : string) (model : string -> image -> reply)
    (p : string) (img : image) : bool :=
  negb (truthy api_key) ||
  match model p img with
  | Failure _ => true
  | Text _ => false
  end.

Definition is_error_text (s : string) : bool := starts_with "Error" s.

(** The world once a call to the remote model is logged, and once the page
    has shown [es]. *)
Definition log_call (p : string) (img : image) (w : world) : world :=
  mkWorld (history_json w) (ticks w) (remote_calls w ++ [(p, img)])
          (page_output w).

Definition shown (es : list element) (w : world) : world :=
  mkWorld (history_json w) (ticks w) (remote_calls w) (page_output w ++ es).

(** The text [analyze_image_with_gemini] returns on the prompt [p]. *)
Definition analysis_result (api_key : string)
    (model : string -> image -> reply) (p : string) (img : image) : string :=
  if truthy api_key then
    match model p img with
    | Text text => text
    | Failure message => "Error during analysis: " ++ message
    end
  else "Error: API Key not provided.".

(** ** Sample inputs *)

Definition sample_clock (n : nat) : datetime := mkDatetime 2024 3 7 9 5 2.

Definition fresh_world : world := mkWorld Missing 0 [] [].

(** A remote model that answers every call. *)
Definition keyed_model (p : string) (img : image) : reply := Text "REPORT-X".

(** Two reports saved within the same second of the clock. *)
Definition same_second_world : world :=
  snd (save_report_to_history sample_clock [("type", VStr "Detailed Audit")]
         (snd (save_report_to_history sample_clock
                 [("type", VStr "Simple Audit")] fresh_world))).

(** ** Readings of the specification that the script does not meet *)

(** The reading of C2 that fails: whenever some entry carries the id,
    [delete_report] takes one entry out and keeps the rest. *)
Definition delete_removes_exactly_one : Prop :=
  forall (report_id : string) (w : world) (h : list value),
    history_json w = Holds (VList h) ->
    Forall has_id h ->
    matching report_id h <> 0 ->
    exists before e after,
      h = (before ++ e :: after)%list /\
      matches report_id e = true /\
      delete_report report_id w
        = (Returned tt, with_file (Holds (VList (before ++ after))) w).

(** The reading of C1 that fails: in either flow, a run whose analysis
    failed leaves [history.json] as it was. *)
Definition failed_result_never_persisted : Prop :=
  forall clock (api_key : string) (model : string -> image -> reply)
         (img : image) (appliance_info : string) (w : world) (ps pd : string),
    truthy appliance_info = true ->
    full_prompt simple_prompt false None = Returned ps ->
    full_prompt detailed_prompt true (Some appliance_info) = Returned pd ->
    (failed api_key model ps img = true ->
     history_json
       (snd (simple_audit_page clock api_key model (Some img) true w))
       = history_json w) /\
    (failed api_key model pd img = true ->
     history_json
       (snd (detailed_audit_page clock api_key model (Some img)
               appliance_info true w))
       = history_json w).

(** ** The History page *)

(** [not obj] on a JSON value: [None], [False], zero and the empty string,
    list and dict are falsy. *)
Definition falsy (v : value) : bool :=
  match v with
  | VNone => true
  | VBool b => negb b
  | VInt z => Z.eqb z 0
  | VStr s => negb (truthy s)
  | VList [] => true
  | VList (_ :: _) => false
  | VDict [] => true
  | VDict (_ :: _) => false
  end.

(** [a == b] on JSON values: a bool is the integer 0 or 1, lists are equal
    item by item, dicts when they have the same keys with equal values, in
    any order, and values of different types are otherwise unequal. *)
Fixpoint eq_value (a b : value) {struct a} : bool :=
  match a, b with
  | VNone, VNone => true
  | VBool x, VBool y => Bool.eqb x y
  | VBool x, VInt z => Z.eqb z (if x then 1 else 0)
  | VInt z, VBool x => Z.eqb z (if x then 1 else 0)
  | VInt x, VInt y => Z.eqb x y
  | VStr x, VStr y => String.eqb x y
  | VList xs, VList ys =>
      (fix items_equal (xs ys : list value) : bool :=
         match xs, ys with
         | [], [] => true
         | x :: xs', y :: ys' => eq_value x y && items_equal xs' ys'
         | _, _ => false
         end) xs ys
  | VDict d, VDict d' =>
      Nat.eqb (length d) (length d') &&
      (fix fields_equal (d : list (string * value)) : bool :=
         match d with
         | [] => true
         | (k, v) :: rest =>
             match lookup k d' with
             | Some v' => eq_value v v'
             | None => false
             end && fields_equal rest
         end) d
  | _, _ => false
  end.

(** [[item for item in history if item["id"] != report_id]] for a
    [report_id] of any type. *)
Fixpoint keep_unequal_ids (report_id : value) (items : list value)
  : outcome (list value) :=
  match items with
  | [] => Returned []
  | item :: rest =>
      match getitem item "id" with
      | Raised e => Raised e
      | Returned v =>
          match keep_unequal_ids report_id rest with
          | Raised e => Raised e
          | Returned kept =>
              Returned (if negb (eq_value v report_id) then item :: kept
                        else kept)
          end
      end
  end.

(** [delete_report] as the History page calls it, on the [report['id']] it
    has loaded, of whatever type; on a [str] it is [delete_report]. *)
Definition delete_report_value (report_id : value) : M unit :=
  history <- load_history ;;
  items <- lift (iter history) ;;
  new_history <- lift (keep_unequal_ids report_id items) ;;
  json_dump (VList new_history).

(** How a run of the History page ends when nothing is raised: at the end of
    the script, at [st.rerun()], or at a second widget with a key already
    used in the run, which Streamlit refuses. *)
Inductive run_end : Type :=
| Completed
| Rerun
| DuplicateWidgetID (key : string).

Section History.

(** [str(v)] for the values that are not a [str]. *)
Variable repr : value -> string.

(** A replacement field [{v}] of an f-string, and the text [st.markdown]
    shows for [v]. *)
Definition text (v : value) : string :=
  match v with
  | VStr s => s
  | _ => repr v
  end.

(** The key of the Delete button pressed to start this run, if any. *)
Variable pressed : option string.

(** [st.button(..., key=key)] *)
Definition button (key : string) : bool :=
  match pressed with
  | Some k => String.eqb k key
  | None => false
  end.

(** The loop [for report in history] over the reports left, [keys] being the
    button keys the run has used.  The expander and the columns are
    containers: the label is computed, and may raise, and only the
    [st.markdown] calls are recorded as output. *)
Fixpoint history_rows (reports : list value) (keys : list string)
  : M run_end :=
  match reports with
  | [] => ret Completed
  | report :: rest =>
      type_ <- lift (getitem report "type") ;;
      date <- lift (getitem report "date") ;;
      let label := "📄 " ++ text type_ ++ " - " ++ text date in
      summary <- lift (getitem report "summary") ;;
      emit (Markdown ("**Summary:** " ++ text summary)) ;;;
      emit (Markdown "---") ;;;
      full_report <- lift (getitem report "full_report") ;;
      emit (Markdown (text full_report)) ;;;
      id <- lift (getitem report "id") ;;
      let key := "del_" ++ text id in
      if existsb (String.eqb key) keys then ret (DuplicateWidgetID key)
      else if button key then
        id' <- lift (getitem report "id") ;;
        delete_report_value id' ;;;
        ret Rerun
      else history_rows rest (key :: keys)
  end.

(** The History page, below its title. *)
Definition history_page : M run_end :=
  history <- load_history ;;
  if falsy history then
    emit (Info "No reports found in history yet.") ;;;
    ret Completed
  else
    reports <- lift (iter history) ;;
    history_rows reports [].

End History.

(** ** Vocabulary of the statements on the History page and the ids *)

(** [report[key]], for an entry that has the field. *)
Definition field (key : string) (e : value) : value :=
  match getitem e key with
  | Returned v => v
  | Raised _ => VNone
  end.

(** An entry with the five fields the History page reads. *)
Definition renders (e : value) : Prop :=
  has_id e /\
  (exists v, getitem e "type" = Returned v) /\
  (exists v, getitem e "date" = Returned v) /\
  (exists v, getitem e "summary" = Returned v) /\
  (exists v, getitem e "full_report" = Returned v).

(** The key of an entry's Delete button. *)
Definition button_key (repr : value -> string) (e : value) : string :=
  "del_" ++ text repr (field "id" e).

(** What the page shows for an entry. *)
Definition row (repr : value -> string) (e : value) : list element :=
  [ Markdown ("**Summary:** " ++ text repr (field "summary" e));
    Markdown "---";
    Markdown (text repr (field "full_report" e)) ].


(** A text for the values that are not a [str], for the sample runs. *)
Definition sample_repr (v : value) : string := "<" ++ type_name v ++ ">".

(** A clock that advances by a second at each reading, and two reports saved
    under it. *)
Definition ticking_clock (n : nat) : datetime := mkDatetime 2024 3 7 9 5 n.

Definition two_reports_world : world :=
  snd (save_report_to_history ticking_clock
         [ ("type", VStr "Detailed Audit"); ("summary", VStr "second");
           ("full_report", VStr "REPORT-Y") ]
         (snd (save_report_to_history ticking_clock
                 [ ("type", VStr "Simple Audit"); ("summary", VStr "first");
                   ("full_report", VStr "REPORT-X") ]
                 fresh_world))).

(** ** The monad on known results *)

Lemma bind_returned {A B} (m : M A) (k : A -> M B) w a w' :
  m w = (Returned a, w') -> bind m k w = k a w'.
Proof. intros E. unfold bind. now rewrite E. Qed.

Lemma with_file_same w : with_file (history_json w) w = w.
Proof. now destruct w. Qed.

(** ** Strings *)

Lemma append_assoc (a b c : string) : (a ++ b) ++ c = a ++ b ++ c.
Proof. induction a as [|ch a IH]; simpl; [reflexivity | now rewrite IH]. Qed.

Lemma starts_with_spec x : forall s,
  starts_with x s = true <-> exists post, s = x ++ post.
Proof.
  induction x as [|a x IH]; intros s; simpl.
  - split; [intros _; now exists s | reflexivity].
  - destruct s as [|b s].
    + split; [discriminate | intros [post E]; discriminate].
    + rewrite andb_true_iff, Ascii.eqb_eq, IH. split.
      * intros [-> [post ->]]. now exists post.
      * intros [post E]. injection E as -> ->. split; [reflexivity | now exists post].
Qed.

Lemma occurs_spec x : forall s, occurs x s = true <-> contains x s.
Proof.
  unfold contains. induction s as [|b s IH].
  - simpl. rewrite orb_false_r, starts_with_spec. split.
    + intros [post E]. now exists EmptyString, post.
    + intros [pre [post E]]. destruct pre; [now exists post | discriminate].
  - cbn [occurs]. rewrite orb_true_iff, starts_with_spec, IH. split.
    + intros [[post E] | [pre [post E]]].
      * now exists EmptyString, post.
      * exists (String b pre), post. simpl. now rewrite E.
    + intros [pre [post E]]. destruct pre as [|c pre].
      * left. now exists post.
      * right. simpl in E. injection E as _ E. now exists pre, post.
Qed.

(** ** The store *)

Lemma load_history_holds w v :
  history_json w = Holds v -> load_history w = (Returned v, w).
Proof.
  intros E. unfold load_history, bind, path_exists, try_except, json_load.
  now rewrite !E.
Qed.

Lemma load_history_no_file w :
  history_json w = Missing \/ history_json w = Unparsable ->
  load_history w = (Returned (VList []), w).
Proof.
  unfold load_history, bind, path_exists, try_except, json_load.
  now intros [E | E]; rewrite !E.
Qed.

Lemma save_on_sequence clock report_data w h :
  stored_sequence (history_json w) = Some h ->
  save_report_to_history clock report_data w =
    (Returned tt,
     mkWorld (Holds (VList (report_entry (clock (ticks w)) (clock (S (ticks w)))
                                          report_data :: h)))
             (S (S (ticks w))) (remote_calls w) (page_output w)).
Proof.
  intros E.
  unfold save_report_to_history, bind, path_exists, try_except, json_load.
  unfold now, lift, json_dump, with_file.
  destruct w as [f t c o]; cbn in *.
  destruct f as [| |v]; cbn in *.
  - now injection E as <-.
  - now injection E as <-.
  - destruct v; try discriminate. now injection E as <-.
Qed.

Lemma save_on_non_sequence clock report_data w :
  stored_sequence (history_json w) = None ->
  exists v msg,
    history_json w = Holds v /\
    save_report_to_history clock report_data w =
      (Raised (AttributeError msg),
       mkWorld (history_json w) (S (S (ticks w))) (remote_calls w)
               (page_output w)).
Proof.
  intros E.
  unfold save_report_to_history, bind, path_exists, try_except, json_load.
  unfold now, lift, json_dump, with_file.
  destruct w as [f t c o]; cbn in *.
  destruct f as [| |v]; cbn in *; try discriminate.
  exists v. destruct v; try discriminate; eexists; (split; [reflexivity|]);
    cbn; reflexivity.
Qed.

Lemma keep_other_ids_others report_id h :
  Forall has_id h -> keep_other_ids report_id h = Returned (others report_id h).
Proof.
  induction 1 as [|e h [v Hv] _ IH]; simpl; [reflexivity|].
  unfold matches. rewrite Hv, IH, negb_involutive.
  now destruct (ne_str v report_id).
Qed.

Lemma keep_other_ids_again report_id : forall items kept,
  keep_other_ids report_id items = Returned kept ->
  keep_other_ids report_id kept = Returned kept.
Proof.
  induction items as [|item rest IH]; intros kept; simpl.
  - now intros [= <-].
  - destruct (getitem item "id") as [v|e] eqn:G; [|discriminate].
    destruct (keep_other_ids report_id rest) as [kept'|e]; [|discriminate].
    specialize (IH kept' eq_refl).
    destruct (ne_str v report_id) eqn:N; intros [= <-]; [|exact IH].
    simpl. now rewrite G, IH, N.
Qed.

Lemma delete_report_on_sequence report_id w h :
  history_json w = Holds (VList h) -> Forall has_id h ->
  delete_report report_id w =
    (Returned tt, with_file (Holds (VList (others report_id h))) w).
Proof.
  intros E H. unfold delete_report.
  rewrite (bind_returned _ _ _ _ _ (load_history_holds w _ E)).
  unfold bind, lift, iter. now rewrite keep_other_ids_others.
Qed.

Lemma others_absent report_id h :
  matching report_id h = 0 -> others report_id h = h.
Proof.
  unfold matching, others. induction h as [|e h IH]; simpl; [reflexivity|].
  destruct (matches report_id e); simpl; [discriminate|].
  intros E. now rewrite IH.
Qed.

Lemma others_single report_id h :
  matching report_id h = 1 ->
  exists before e after,
    h = (before ++ e :: after)%list /\ matches report_id e = true /\
    others report_id h = (before ++ after)%list.
Proof.
  unfold matching, others. induction h as [|e h IH]; simpl; [discriminate|].
  destruct (matches report_id e) eqn:Me; simpl.
  - intros [= E]. exists [], e, h. repeat split; [exact Me|].
    exact (others_absent report_id h E).
  - intros E. destruct (IH E) as (before & x & after & -> & Mx & Eo).
    exists (e :: before), x, after. repeat split; [exact Mx|].
    simpl. now rewrite Eo.
Qed.

(** ** Claims on the report store *)

(** C4. [load_history] returns the empty list, raises nothing and leaves the
    world as it was, when [history.json] is missing or its content cannot be
    parsed. *)
Theorem load_history_empty_on_missing_or_corrupt (w : world) :
  history_json w = Missing \/ history_json w = Unparsable ->
  load_history w = (Returned (VList []), w).
Proof. exact (load_history_no_file w). Qed.

Lemma load_history_empty_on_missing_or_corrupt_witness :
  load_history fresh_world = (Returned (VList []), fresh_world) /\
  load_history (with_file Unparsable fresh_world)
    = (Returned (VList []), with_file Unparsable fresh_world).
Proof.
  split.
  - apply (load_history_empty_on_missing_or_corrupt fresh_world).
    left. reflexivity.
  - apply (load_history_empty_on_missing_or_corrupt
             (with_file Unparsable fresh_world)).
    right. reflexivity.
Defined.

(** C3. On a stored sequence [h] (the list in the file, or the empty list
    when the file is missing or unreadable), saving a report and then loading
    the history returns a list whose first element is the entry that was
    inserted; the rest is [h]. *)
Theorem save_then_load_puts_entry_first clock (report_data : dict)
    (w : world) (h : list value) :
  stored_sequence (history_json w) = Some h ->
  let entry :=
    report_entry (clock (ticks w)) (clock (S (ticks w))) report_data in
  exists loaded w',
    (save_report_to_history clock report_data ;;; load_history) w
      = (Returned (VList loaded), w') /\
    hd_error loaded = Some entry /\
    loaded = entry :: h.
Proof.
  intros E entry. exists (entry :: h). eexists.
  split; [|split; reflexivity].
  erewrite bind_returned; [|exact (save_on_sequence _ _ _ _ E)].
  apply load_history_holds. reflexivity.
Qed.

Lemma save_then_load_puts_entry_first_witness :
  exists w',
    (save_report_to_history sample_clock [("type", VStr "Simple Audit")] ;;;
     load_history) (with_file (Holds (VList [VInt 7])) fresh_world)
    = (Returned (VList [ VDict [ ("id", VStr "20240307090502");
                                 ("date", VStr "2024-03-07 09:05");
                                 ("type", VStr "Simple Audit");
                                 ("summary", VStr "No summary");
                                 ("full_report", VStr EmptyString) ];
                         VInt 7 ]), w').
Proof.
  destruct (save_then_load_puts_entry_first sample_clock
              [("type", VStr "Simple Audit")]
              (with_file (Holds (VList [VInt 7])) fresh_world) [VInt 7]
              eq_refl) as (loaded & w' & E & _ & ->).
  exists w'. exact E.
Defined.

(** C9. When [history.json] holds valid JSON that is not an array,
    [load_history] returns that value as it is, and a following
    [save_report_to_history] raises [AttributeError] at the insertion and
    leaves the file as it was. *)
Theorem non_array_history_is_loaded_and_breaks_save clock
    (report_data : dict) (w : world) (v : value) :
  history_json w = Holds v ->
  (forall items, v <> VList items) ->
  load_history w = (Returned v, w) /\
  exists msg w',
    save_report_to_history clock report_data w
      = (Raised (AttributeError msg), w') /\
    history_json w' = Holds v.
Proof.
  intros E N. split; [now apply load_history_holds|].
  destruct (save_on_non_sequence clock report_data w) as (v' & msg & _ & S).
  - rewrite E. destruct v; try reflexivity. now elim (N items).
  - exists msg. eexists. split; [exact S|]. exact E.
Qed.

Lemma non_array_history_is_loaded_and_breaks_save_witness :
  load_history (with_file (Holds (VDict [])) fresh_world)
    = (Returned (VDict []), with_file (Holds (VDict [])) fresh_world) /\
  exists msg w',
    save_report_to_history sample_clock [] (with_file (Holds (VDict [])) fresh_world)
      = (Raised (AttributeError msg), w') /\
    history_json w' = Holds (VDict []).
Proof.
  apply (non_array_history_is_loaded_and_breaks_save sample_clock []
           (with_file (Holds (VDict [])) fresh_world) (VDict [])).
  - reflexivity.
  - intros items. discriminate.
Defined.

(** C10. Whatever dictionary is passed, the entry [save_report_to_history]
    persists has the five fields id, date, type, summary and full_report, in
    this order: id and date are the two formats of the clock read during the
    call, the other three are the values of the input, or "Unknown",
    "No summary" and the empty string where the input has none. *)
Theorem saved_entry_has_all_five_fields clock (report_data : dict)
    (w : world) (h : list value) :
  stored_sequence (history_json w) = Some h ->
  exists fields w',
    save_report_to_history clock report_data w = (Returned tt, w') /\
    history_json w' = Holds (VList (VDict fields :: h)) /\
    map fst fields = ["id"; "date"; "type"; "summary"; "full_report"] /\
    lookup "id" fields
      = Some (VStr (strftime (clock (ticks w)) "%Y%m%d%H%M%S")) /\
    lookup "date" fields
      = Some (VStr (strftime (clock (S (ticks w))) "%Y-%m-%d %H:%M")) /\
    lookup "type" fields
      = Some (match lookup "type" report_data with
              | Some v => v
              | None => VStr "Unknown"
              end) /\
    lookup "summary" fields
      = Some (match lookup "summary" report_data with
              | Some v => v
              | None => VStr "No summary"
              end) /\
    lookup "full_report" fields
      = Some (match lookup "full_report" report_data with
              | Some v => v
              | None => VStr EmptyString
              end).
Proof.
  intros E. eexists. eexists. split; [exact (save_on_sequence _ _ _ _ E)|].
  cbn. repeat split.
Qed.

Lemma saved_entry_has_all_five_fields_witness :
  exists fields w',
    save_report_to_history sample_clock
      [("id", VStr "mine"); ("summary", VNone)] fresh_world
      = (Returned tt, w') /\
    history_json w' = Holds (VList [VDict fields]) /\
    map fst fields = ["id"; "date"; "type"; "summary"; "full_report"] /\
    lookup "id" fields = Some (VStr "20240307090502") /\
    lookup "date" fields = Some (VStr "2024-03-07 09:05") /\
    lookup "type" fields = Some (VStr "Unknown") /\
    lookup "summary" fields = Some VNone /\
    lookup "full_report" fields = Some (VStr EmptyString).
Proof.
  exact (saved_entry_has_all_five_fields sample_clock
           [("id", VStr "mine"); ("summary", VNone)] fresh_world [] eq_refl).
Defined.

(** C2, as stated, fails: two reports saved within one second share their
    id, and deleting that id removes both. *)
Lemma delete_report_removes_both_same_second_entries :
  ~ delete_removes_exactly_one.
Proof.
  intros claim.
  destruct (claim "20240307090502" same_second_world
              [ report_entry (sample_clock 2) (sample_clock 3)
                  [("type", VStr "Detailed Audit")];
                report_entry (sample_clock 0) (sample_clock 1)
                  [("type", VStr "Simple Audit")] ])
    as (before & e & after & Eh & _ & Ed).
  - reflexivity.
  - repeat constructor; eexists; reflexivity.
  - discriminate.
  - assert (L : (before ++ after)%list = []).
    { vm_compute in Ed. now injection Ed. }
    apply app_eq_nil in L. destruct L as [-> ->]. discriminate Eh.
Qed.

(** C2, amended. On a stored sequence whose entries all have an id,
    [delete_report] raises nothing and rewrites the file with the entries
    whose id differs, in their original order: every entry carrying the id is
    removed, so exactly one when exactly one carries it, and the sequence is
    rewritten unchanged when none does. *)
Theorem delete_report_removes_every_match (report_id : string) (w : world)
    (h : list value) :
  history_json w = Holds (VList h) ->
  Forall has_id h ->
  delete_report report_id w
    = (Returned tt,
       with_file (Holds (VList (filter (fun e => negb (matches report_id e)) h)))
                 w) /\
  (matching report_id h = 0 ->
   delete_report report_id w = (Returned tt, w)) /\
  (matching report_id h = 1 ->
   exists before e after,
     h = (before ++ e :: after)%list /\
     matches report_id e = true /\
     delete_report report_id w
       = (Returned tt, with_file (Holds (VList (before ++ after))) w)).
Proof.
  intros E H. pose proof (delete_report_on_sequence report_id w h E H) as D.
  split; [exact D|]. split.
  - intros A. rewrite D, (others_absent _ _ A), <- E. now rewrite with_file_same.
  - intros A. destruct (others_single _ _ A) as (before & e & after & Eh & Me & Eo).
    exists before, e, after. repeat split; [exact Eh | exact Me|].
    now rewrite D, Eo.
Qed.

Lemma delete_report_removes_every_match_witness :
  delete_report "20240307090502" same_second_world
    = (Returned tt, with_file (Holds (VList [])) same_second_world).
Proof.
  apply (delete_report_removes_every_match "20240307090502" same_second_world
           [ report_entry (sample_clock 2) (sample_clock 3)
               [("type", VStr "Detailed Audit")];
             report_entry (sample_clock 0) (sample_clock 1)
               [("type", VStr "Simple Audit")] ]).
  - reflexivity.
  - repeat constructor; eexists; reflexivity.
Defined.

Lemma load_history_returns w :
  exists v, load_history w = (Returned v, w).
Proof.
  destruct (history_json w) as [| |v] eqn:F.
  - exists (VList []). apply load_history_no_file. now left.
  - exists (VList []). apply load_history_no_file. now right.
  - exists v. now apply load_history_holds.
Qed.

Lemma delete_report_run report_id w v :
  load_history w = (Returned v, w) ->
  delete_report report_id w =
    match iter v with
    | Raised e => (Raised e, w)
    | Returned items =>
        match keep_other_ids report_id items with
        | Raised e => (Raised e, w)
        | Returned kept => (Returned tt, with_file (Holds (VList kept)) w)
        end
    end.
Proof.
  intros L. unfold delete_report. rewrite (bind_returned _ _ _ _ _ L).
  unfold bind, lift. destruct (iter v) as [items|e]; [|reflexivity].
  now destruct (keep_other_ids report_id items).
Qed.

(** C8. Deleting an id a second time changes nothing: run on the world the
    first call left, [delete_report] ends as the first call did, with the
    same outcome and the same world, whatever [history.json] held. *)
Theorem delete_report_twice_is_once (report_id : string) (w : world) :
  delete_report report_id (snd (delete_report report_id w))
    = delete_report report_id w.
Proof.
  destruct (load_history_returns w) as [v L].
  pose proof (delete_report_run report_id w v L) as D.
  destruct (iter v) as [items|e] eqn:I.
  - destruct (keep_other_ids report_id items) as [kept|e] eqn:K.
    + rewrite D. cbn [snd].
      rewrite (delete_report_run report_id
                 (with_file (Holds (VList kept)) w) (VList kept)
                 (load_history_holds (with_file (Holds (VList kept)) w)
                                     (VList kept) eq_refl)).
      cbn [iter]. now rewrite (keep_other_ids_again report_id items kept K).
    + rewrite D at 1. cbn [snd]. reflexivity.
  - rewrite D at 1. cbn [snd]. reflexivity.
Qed.

(** ** The audit flows *)

Lemma analyze_run api_key model img prompt is_detailed info p w :
  full_prompt prompt is_detailed info = Returned p ->
  analyze_image_with_gemini api_key model img prompt is_detailed info w
    = (Returned (analysis_result api_key model p img),
       if truthy api_key then log_call p img w else w).
Proof.
  intros F. unfold analyze_image_with_gemini, analysis_result.
  destruct (truthy api_key); [|reflexivity].
  unfold try_except, bind, lift, generate_content, log_call. rewrite F.
  now destruct (model p img).
Qed.

Lemma failed_result_is_error_text api_key model p img :
  failed api_key model p img = true ->
  is_error_text (analysis_result api_key model p img) = true /\
  truthy (analysis_result api_key model p img) = true.
Proof.
  unfold failed, analysis_result.
  destruct (truthy api_key); [|now split].
  destruct (model p img); [discriminate | now split].
Qed.

Lemma save_keeps_calls clock report_data w :
  remote_calls (snd (save_report_to_history clock report_data w))
    = remote_calls w.
Proof.
  destruct (stored_sequence (history_json w)) as [h|] eqn:E.
  - now rewrite (save_on_sequence clock report_data w h E).
  - destruct (save_on_non_sequence clock report_data w E) as (v & msg & _ & S).
    now rewrite S.
Qed.

Lemma simple_prompt_text info :
  full_prompt simple_prompt false info
    = Returned (preamble ++ simple_prompt ++ before_appliances
                         ++ EmptyString ++ closing).
Proof. reflexivity. Qed.

Lemma detailed_prompt_text prompt x :
  full_prompt prompt true (Some x)
    = Returned (preamble ++ prompt ++ before_appliances
                         ++ (appliances_marker ++ x) ++ closing).
Proof. reflexivity. Qed.

(** The Simple Audit run, step by step. *)
Lemma simple_audit_page_run clock api_key model img w :
  let p := preamble ++ simple_prompt ++ before_appliances
                    ++ EmptyString ++ closing in
  let result := analysis_result api_key model p img in
  let w1 := shown [Markdown "### 📊 Report"; Markdown result]
                  (if truthy api_key then log_call p img w else w) in
  simple_audit_page clock api_key model (Some img) true w
    = if truthy result
      then (save_report_to_history clock
              [ ("type", VStr "Simple Audit");
                ("summary", VStr "Simple Bill Analysis");
                ("full_report", VStr result) ] ;;;
            emit (Success "Report saved to History!")) w1
      else (Returned tt, w1).
Proof.
  intros p result w1. unfold simple_audit_page.
  rewrite (bind_returned _ _ _ _ _
             (analyze_run api_key model img simple_prompt false None p w
                (simple_prompt_text None))).
  fold result. unfold bind at 1 2, emit at 1 2. cbn [page_output history_json ticks remote_calls].
  replace (mkWorld _ _ _ _) with w1.
  2:{ unfold w1, shown. now rewrite <- app_assoc. }
  now destruct (truthy result).
Qed.

(** The Detailed Audit run on an image and a non-empty appliance text. *)
Lemma detailed_audit_page_run clock api_key model img info w :
  truthy info = true ->
  let p := preamble ++ detailed_prompt ++ before_appliances
                    ++ (appliances_marker ++ info) ++ closing in
  let result := analysis_result api_key model p img in
  let w1 := shown [Markdown "### 📊 Detailed Report"; Markdown result]
                  (if truthy api_key then log_call p img w else w) in
  detailed_audit_page clock api_key model (Some img) info true w
    = if truthy result
      then (save_report_to_history clock
              [ ("type", VStr "Detailed Audit");
                ("summary", VStr "Detailed Analysis with Appliances");
                ("full_report", VStr result) ] ;;;
            emit (Success "Detailed Report saved to History!")) w1
      else (Returned tt, w1).
Proof.
  intros T p result w1. unfold detailed_audit_page. rewrite T.
  rewrite (bind_returned _ _ _ _ _
             (analyze_run api_key model img detailed_prompt true (Some info) p w
                (detailed_prompt_text detailed_prompt info))).
  fold result. unfold bind at 1 2, emit at 1 2. cbn [page_output history_json ticks remote_calls].
  replace (mkWorld _ _ _ _) with w1.
  2:{ unfold w1, shown. now rewrite <- app_assoc. }
  now destruct (truthy result).
Qed.

Lemma persist_run clock report_data body w h :
  stored_sequence (history_json w) = Some h ->
  history_json (snd ((save_report_to_history clock report_data ;;;
                      emit (Success body)) w))
    = Holds (VList (report_entry (clock (ticks w)) (clock (S (ticks w)))
                                 report_data :: h)).
Proof.
  intros E. now rewrite (bind_returned _ _ _ _ _ (save_on_sequence _ _ _ _ E)).
Qed.

Lemma persist_keeps_calls clock report_data body w :
  remote_calls (snd ((save_report_to_history clock report_data ;;;
                      emit (Success body)) w))
    = remote_calls w.
Proof.
  pose proof (save_keeps_calls clock report_data w) as K. unfold bind.
  destruct (save_report_to_history clock report_data w) as [[[]|e] w'];
    exact K.
Qed.

(** ** Claims on the audit flows *)

(** C5. Pressing Generate on the Detailed Audit page with no image, or with
    an empty appliance text, only writes a validation error on the page: the
    remote model is not called (the log of calls is as before) and nothing
    else of the world changes. *)
Theorem detailed_audit_rejects_missing_input clock (api_key : string)
    (model : string -> image -> reply) (uploaded_file : option image)
    (appliance_info : string) (w : world) :
  uploaded_file = None \/ appliance_info = EmptyString ->
  exists message,
    detailed_audit_page clock api_key model uploaded_file appliance_info true w
      = (Returned tt,
         mkWorld (history_json w) (ticks w) (remote_calls w)
                 (page_output w ++ [Error message])).
Proof.
  intros [-> | ->].
  - exists "Please upload a bill image.". reflexivity.
  - destruct uploaded_file as [img|].
    + exists "Please enter appliance information.". reflexivity.
    + exists "Please upload a bill image.". reflexivity.
Qed.

Lemma detailed_audit_rejects_missing_input_witness :
  exists message,
    detailed_audit_page sample_clock "key" keyed_model (Some "bill.png")
                        EmptyString true fresh_world
      = (Returned tt, mkWorld Missing 0 [] [Error message]).
Proof.
  apply (detailed_audit_rejects_missing_input sample_clock "key" keyed_model
           (Some "bill.png") EmptyString fresh_world).
  right. reflexivity.
Defined.

(** C6. With a credential, [analyze_image_with_gemini] in detailed mode
    sends the remote model exactly one prompt, and the appliance text [x]
    occurs in it verbatim, whatever [x] is. *)
Theorem detailed_prompt_embeds_appliance_info (api_key : string)
    (model : string -> image -> reply) (img : image) (prompt x : string)
    (w : world) :
  truthy api_key = true ->
  exists p,
    full_prompt prompt true (Some x) = Returned p /\
    remote_calls
      (snd (analyze_image_with_gemini api_key model img prompt true (Some x) w))
      = (remote_calls w ++ [(p, img)])%list /\
    contains x p.
Proof.
  intros K. eexists. split; [apply detailed_prompt_text|]. split.
  - rewrite (analyze_run _ _ _ _ _ _ _ w (detailed_prompt_text prompt x)).
    now rewrite K.
  - exists (preamble ++ prompt ++ before_appliances ++ appliances_marker), closing.
    now rewrite !append_assoc.
Qed.

Lemma detailed_prompt_embeds_appliance_info_witness :
  exists p,
    full_prompt detailed_prompt true (Some "1 Refrigerator (Class A)")
      = Returned p /\
    remote_calls
      (snd (analyze_image_with_gemini "key" keyed_model "bill.png"
              detailed_prompt true (Some "1 Refrigerator (Class A)")
              fresh_world))
      = [(p, "bill.png")] /\
    contains "1 Refrigerator (Class A)" p.
Proof.
  apply (detailed_prompt_embeds_appliance_info "key" keyed_model "bill.png"
           detailed_prompt "1 Refrigerator (Class A)" fresh_world).
  reflexivity.
Defined.

(** C7. With a credential, the Simple Audit run sends the remote model one
    prompt, the same whatever the state: it contains the instruction asking
    for 3 recommendations, its appliance section is empty, and neither the
    appliance heading nor the word appliance occurs in it. *)
Theorem simple_prompt_asks_three_recommendations_only clock
    (api_key : string) (model : string -> image -> reply) (img : image)
    (w : world) :
  truthy api_key = true ->
  exists p,
    full_prompt simple_prompt false None = Returned p /\
    remote_calls (snd (simple_audit_page clock api_key model (Some img) true w))
      = (remote_calls w ++ [(p, img)])%list /\
    contains "5. Provide 3 specific recommendations to reduce this bill." p /\
    appliances_section false None = Returned EmptyString /\
    ~ contains appliances_marker p /\
    ~ contains "ppliance" p.
Proof.
  intros K. eexists. split; [apply simple_prompt_text|]. split.
  - rewrite simple_audit_page_run. rewrite K.
    destruct (truthy (analysis_result _ _ _ _));
      [rewrite persist_keeps_calls|]; reflexivity.
  - split; [apply occurs_spec; vm_compute; reflexivity|].
    split; [reflexivity|].
    split; intros C; apply occurs_spec in C; vm_compute in C; discriminate C.
Qed.

Lemma simple_prompt_asks_three_recommendations_only_witness :
  exists p,
    full_prompt simple_prompt false None = Returned p /\
    remote_calls (snd (simple_audit_page sample_clock "key" keyed_model
                         (Some "bill.png") true fresh_world))
      = [(p, "bill.png")] /\
    contains "5. Provide 3 specific recommendations to reduce this bill." p /\
    appliances_section false None = Returned EmptyString /\
    ~ contains appliances_marker p /\
    ~ contains "ppliance" p.
Proof.
  apply (simple_prompt_asks_three_recommendations_only sample_clock "key"
           keyed_model "bill.png" fresh_world).
  reflexivity.
Defined.

(** C1, as stated, fails: without a credential the Simple Audit run gets the
    text "Error: API Key not provided." and saves it as a report. *)
Lemma missing_key_error_is_saved_as_report :
  ~ failed_result_never_persisted.
Proof.
  intros claim.
  destruct (claim sample_clock EmptyString keyed_model "bill.png"
              "1 Refrigerator (Class A)" fresh_world _ _
              eq_refl eq_refl eq_refl) as [S _].
  specialize (S eq_refl). vm_compute in S. discriminate S.
Qed.

(** C1, amended. In both audit flows, on a stored sequence [h], the text the
    analysis returned is saved at the front of the history exactly when it is
    not empty, and the file is left as it was when it is empty.  The two
    error texts of a failed analysis are not empty, so a failed result is
    saved like any report. *)
Theorem audit_persists_every_nonempty_result clock (api_key : string)
    (model : string -> image -> reply) (img : image)
    (appliance_info : string) (w : world) (h : list value) :
  stored_sequence (history_json w) = Some h ->
  truthy appliance_info = true ->
  let t1 := clock (ticks w) in
  let t2 := clock (S (ticks w)) in
  exists ps pd,
    full_prompt simple_prompt false None = Returned ps /\
    full_prompt detailed_prompt true (Some appliance_info) = Returned pd /\
    let simple_result := analysis_result api_key model ps img in
    let detailed_result := analysis_result api_key model pd img in
    fst (analyze_image_with_gemini api_key model img simple_prompt false None w)
      = Returned simple_result /\
    fst (analyze_image_with_gemini api_key model img detailed_prompt true
           (Some appliance_info) w)
      = Returned detailed_result /\
    history_json
      (snd (simple_audit_page clock api_key model (Some img) true w))
      = (if truthy simple_result
         then Holds (VList (report_entry t1 t2
                              [ ("type", VStr "Simple Audit");
                                ("summary", VStr "Simple Bill Analysis");
                                ("full_report", VStr simple_result) ] :: h))
         else history_json w) /\
    history_json
      (snd (detailed_audit_page clock api_key model (Some img)
              appliance_info true w))
      = (if truthy detailed_result
         then Holds (VList (report_entry t1 t2
                              [ ("type", VStr "Detailed Audit");
                                ("summary",
                                 VStr "Detailed Analysis with Appliances");
                                ("full_report", VStr detailed_result) ] :: h))
         else history_json w) /\
    (failed api_key model ps img = true ->
     is_error_text simple_result = true /\ truthy simple_result = true) /\
    (failed api_key model pd img = true ->
     is_error_text detailed_result = true /\ truthy detailed_result = true).
Proof.
  intros E T t1 t2. eexists. eexists.
  split; [apply simple_prompt_text|].
  split; [apply detailed_prompt_text|].
  cbv zeta.
  split; [now rewrite (analyze_run _ _ _ _ _ _ _ w (simple_prompt_text None))|].
  split; [now rewrite (analyze_run _ _ _ _ _ _ _ w
                         (detailed_prompt_text detailed_prompt appliance_info))|].
  split; [|split; [|split; apply failed_result_is_error_text]].
  - rewrite simple_audit_page_run.
    destruct (truthy (analysis_result _ _ _ _)).
    + rewrite (persist_run _ _ _ _ h); [now destruct (truthy api_key)|].
      now destruct (truthy api_key).
    + now destruct (truthy api_key).
  - rewrite (detailed_audit_page_run _ _ _ _ _ _ T).
    destruct (truthy (analysis_result _ _ _ _)).
    + rewrite (persist_run _ _ _ _ h); [now destruct (truthy api_key)|].
      now destruct (truthy api_key).
    + now destruct (truthy api_key).
Qed.

Lemma audit_persists_every_nonempty_result_witness :
  history_json
    (snd (detailed_audit_page sample_clock "key" (fun _ _ => Failure "quota")
            (Some "bill.png") "1 Refrigerator (Class A)" true fresh_world))
    = Holds (VList [ VDict [ ("id", VStr "20240307090502");
                             ("date", VStr "2024-03-07 09:05");
                             ("type", VStr "Detailed Audit");
                             ("summary",
                              VStr "Detailed Analysis with Appliances");
                             ("full_report",
                              VStr "Error during analysis: quota") ] ]).
Proof.
  destruct (audit_persists_every_nonempty_result sample_clock "key"
              (fun _ _ => Failure "quota") "bill.png"
              "1 Refrigerator (Class A)" fresh_world [] eq_refl eq_refl)
    as (ps & pd & _ & Pd & _ & _ & _ & D & _).
  injection Pd as <-. exact D.
Defined.

(** ** More on the report store *)

Lemma others_keep_ids report_id h :
  Forall has_id h -> Forall has_id (others report_id h).
Proof.
  intros H. apply Forall_forall. intros e I.
  apply filter_In in I. destruct I as [I _].
  exact (proj1 (Forall_forall _ _) H e I).
Qed.

Lemma others_commute a b h :
  others a (others b h) = others b (others a h).
Proof.
  unfold others. induction h as [|e h IH]; simpl; [reflexivity|].
  destruct (matches b e) eqn:B, (matches a e) eqn:A; simpl;
    rewrite ?A, ?B; simpl; now rewrite ?IH.
Qed.

Lemma report_entry_has_id t1 t2 report_data :
  getitem (report_entry t1 t2 report_data) "id"
    = Returned (VStr (strftime t1 "%Y%m%d%H%M%S")).
Proof. reflexivity. Qed.

Lemma matches_own_id t1 t2 report_data :
  matches (strftime t1 "%Y%m%d%H%M%S") (report_entry t1 t2 report_data) = true.
Proof.
  unfold matches. rewrite report_entry_has_id. cbn [ne_str].
  now rewrite String.eqb_refl.
Qed.

(** Two reports saved one after the other are loaded newest first: the second
    entry, then the first, then the sequence stored before. *)
Theorem two_saves_are_loaded_newest_first clock (first second : dict)
    (w : world) (h : list value) :
  stored_sequence (history_json w) = Some h ->
  exists w',
    (save_report_to_history clock first ;;;
     save_report_to_history clock second ;;;
     load_history) w
    = (Returned
         (VList (report_entry (clock (2 + ticks w)) (clock (3 + ticks w)) second
                 :: report_entry (clock (ticks w)) (clock (1 + ticks w)) first
                 :: h)),
       w').
Proof.
  intros E. eexists.
  rewrite (bind_returned _ _ _ _ _ (save_on_sequence clock first w h E)).
  erewrite bind_returned; [|apply save_on_sequence; reflexivity].
  apply load_history_holds. reflexivity.
Qed.

Lemma two_saves_are_loaded_newest_first_witness :
  exists w',
    (save_report_to_history sample_clock [("type", VStr "Simple Audit")] ;;;
     save_report_to_history sample_clock [("type", VStr "Detailed Audit")] ;;;
     load_history) (with_file Unparsable fresh_world)
    = (Returned
         (VList [ report_entry (sample_clock 2) (sample_clock 3)
                    [("type", VStr "Detailed Audit")];
                  report_entry (sample_clock 0) (sample_clock 1)
                    [("type", VStr "Simple Audit")] ]),
       w').
Proof.
  exact (two_saves_are_loaded_newest_first sample_clock
           [("type", VStr "Simple Audit")] [("type", VStr "Detailed Audit")]
           (with_file Unparsable fresh_world) [] eq_refl).
Defined.

(** Saving a report and deleting the id it was given restores the stored
    sequence, when every stored entry has an id and none has that one. *)
Theorem save_then_delete_restores_history clock (report_data : dict)
    (w : world) (h : list value) :
  history_json w = Holds (VList h) ->
  Forall has_id h ->
  matching (strftime (clock (ticks w)) "%Y%m%d%H%M%S") h = 0 ->
  exists w',
    (save_report_to_history clock report_data ;;;
     delete_report (strftime (clock (ticks w)) "%Y%m%d%H%M%S")) w
      = (Returned tt, w') /\
    history_json w' = history_json w.
Proof.
  intros E H A. eexists. split.
  - erewrite bind_returned; [|apply save_on_sequence; rewrite E; reflexivity].
    apply delete_report_on_sequence; [reflexivity|].
    constructor; [|exact H]. eexists. apply report_entry_has_id.
  - cbn [history_json with_file]. unfold others. cbn [filter].
    rewrite matches_own_id. cbn [negb].
    fold (others (strftime (clock (ticks w)) "%Y%m%d%H%M%S") h).
    now rewrite (others_absent _ _ A), E.
Qed.

Lemma save_then_delete_restores_history_witness :
  exists w',
    (save_report_to_history sample_clock [("type", VStr "Simple Audit")] ;;;
     delete_report "20240307090502")
      (with_file (Holds (VList [VDict [("id", VStr "20230101000000")]]))
                 fresh_world)
      = (Returned tt, w') /\
    history_json w' = Holds (VList [VDict [("id", VStr "20230101000000")]]).
Proof.
  apply (save_then_delete_restores_history sample_clock
           [("type", VStr "Simple Audit")]
           (with_file (Holds (VList [VDict [("id", VStr "20230101000000")]]))
                      fresh_world)
           [VDict [("id", VStr "20230101000000")]]).
  - reflexivity.
  - repeat constructor. eexists. reflexivity.
  - reflexivity.
Defined.

(** Deleting two ids gives the same file in either order. *)
Theorem delete_reports_commute (a b : string) (w : world) (h : list value) :
  history_json w = Holds (VList h) ->
  Forall has_id h ->
  (delete_report a ;;; delete_report b) w
    = (delete_report b ;;; delete_report a) w /\
  (delete_report a ;;; delete_report b) w
    = (Returned tt, with_file (Holds (VList (others b (others a h)))) w).
Proof.
  intros E H.
  assert (R : forall x y,
             (delete_report x ;;; delete_report y) w
             = (Returned tt, with_file (Holds (VList (others y (others x h)))) w)).
  { intros x y.
    rewrite (bind_returned _ _ _ _ _ (delete_report_on_sequence x w h E H)).
    rewrite (delete_report_on_sequence y
               (with_file (Holds (VList (others x h))) w) (others x h) eq_refl
               (others_keep_ids x h H)).
    reflexivity. }
  split; [|apply R]. rewrite (R a b), (R b a). now rewrite others_commute.
Qed.

Lemma delete_reports_commute_witness :
  (delete_report "20240307090502" ;;; delete_report "x") same_second_world
    = (delete_report "x" ;;; delete_report "20240307090502") same_second_world.
Proof.
  apply (delete_reports_commute "20240307090502" "x" same_second_world
           [ report_entry (sample_clock 2) (sample_clock 3)
               [("type", VStr "Detailed Audit")];
             report_entry (sample_clock 0) (sample_clock 1)
               [("type", VStr "Simple Audit")] ]).
  - reflexivity.
  - repeat constructor; eexists; reflexivity.
Defined.

Lemma keep_other_ids_key_error report_id h :
  (forall e, In e h -> exists d, e = VDict d) ->
  (exists d, In (VDict d) h /\ lookup "id" d = None) ->
  keep_other_ids report_id h = Raised (KeyError "id").
Proof.
  induction h as [|e h IH]; intros D [d [I L]]; [destruct I|].
  destruct (D e (or_introl eq_refl)) as [d' ->]. cbn [keep_other_ids getitem].
  destruct (lookup "id" d') as [v|] eqn:L'; [|reflexivity].
  rewrite IH; [reflexivity | |].
  - intros x Ix. apply D. now right.
  - destruct I as [I | I]; [|now exists d].
    injection I as ->. congruence.
Qed.

(** When the stored entries are JSON objects and one of them has no id,
    [delete_report] raises [KeyError] before it writes: nothing is deleted,
    whatever id was asked for. *)
Theorem delete_report_fails_on_entry_without_id (report_id : string)
    (w : world) (h : list value) :
  history_json w = Holds (VList h) ->
  (forall e, In e h -> exists d, e = VDict d) ->
  (exists d, In (VDict d) h /\ lookup "id" d = None) ->
  delete_report report_id w = (Raised (KeyError "id"), w).
Proof.
  intros E D L.
  rewrite (delete_report_run report_id w (VList h) (load_history_holds w _ E)).
  cbn [iter]. now rewrite (keep_other_ids_key_error report_id h D L).
Qed.

Lemma delete_report_fails_on_entry_without_id_witness :
  delete_report "20240307090502"
    (with_file (Holds (VList [ VDict [("id", VStr "20240307090502")];
                               VDict [("type", VStr "Simple Audit")] ]))
               fresh_world)
  = (Raised (KeyError "id"),
     with_file (Holds (VList [ VDict [("id", VStr "20240307090502")];
                               VDict [("type", VStr "Simple Audit")] ]))
               fresh_world).
Proof.
  apply (delete_report_fails_on_entry_without_id "20240307090502" _
           [ VDict [("id", VStr "20240307090502")];
             VDict [("type", VStr "Simple Audit")] ]).
  - reflexivity.
  - intros e [<- | [<- | []]]; eexists; reflexivity.
  - exists [("type", VStr "Simple Audit")]. split; [|reflexivity].
    right. left. reflexivity.
Defined.

(** When [history.json] holds JSON that is not an array, [delete_report]
    either raises [TypeError] and leaves the world as it was, or, on the empty
    object and the empty string only, replaces the file by the empty list. *)
Theorem delete_report_on_non_array (report_id : string) (w : world)
    (v : value) :
  history_json w = Holds v ->
  (forall items, v <> VList items) ->
  (exists msg, delete_report report_id w = (Raised (TypeError msg), w)) \/
  ((v = VDict [] \/ v = VStr EmptyString) /\
   delete_report report_id w = (Returned tt, with_file (Holds (VList [])) w)).
Proof.
  intros E N.
  rewrite (delete_report_run report_id w v (load_history_holds w _ E)).
  destruct v as [| b | z | s | items | d].
  - left. eexists. reflexivity.
  - left. eexists. reflexivity.
  - left. eexists. reflexivity.
  - destruct s as [|c s]; [right; split; [now right | reflexivity]|].
    left. eexists. reflexivity.
  - now elim (N items).
  - destruct d as [|[k x] d]; [right; split; [now left | reflexivity]|].
    left. eexists. reflexivity.
Qed.

Lemma delete_report_on_non_array_witness :
  (exists msg,
     delete_report "20240307090502"
       (with_file (Holds (VDict [("reports", VList [])])) fresh_world)
     = (Raised (TypeError msg),
        with_file (Holds (VDict [("reports", VList [])])) fresh_world)) \/
  ((VDict [("reports", VList [])] = VDict [] \/
    VDict [("reports", VList [])] = VStr EmptyString) /\
   delete_report "20240307090502"
     (with_file (Holds (VDict [("reports", VList [])])) fresh_world)
   = (Returned tt,
      with_file (Holds (VList []))
        (with_file (Holds (VDict [("reports", VList [])])) fresh_world))).
Proof.
  apply (delete_report_on_non_array "20240307090502"
           (with_file (Holds (VDict [("reports", VList [])])) fresh_world)
           (VDict [("reports", VList [])])).
  - reflexivity.
  - intros items. discriminate.
Defined.



(** ** The ids *)






(** ** More on the analysis and the audit pages *)

(** [analyze_image_with_gemini] never raises, whatever its arguments: it
    returns a text, leaves the file, the clock and the page alone, and calls
    the remote model at most once, not at all without a credential. *)
Theorem analyze_image_with_gemini_never_raises (api_key : string)
    (model : string -> image -> reply) (img : image) (prompt : string)
    (is_detailed : bool) (appliances_info : option string) (w : world) :
  exists result w',
    analyze_image_with_gemini api_key model img prompt is_detailed
                              appliances_info w
      = (Returned result, w') /\
    history_json w' = history_json w /\
    ticks w' = ticks w /\
    page_output w' = page_output w /\
    (remote_calls w' = remote_calls w \/
     exists p, remote_calls w' = (remote_calls w ++ [(p, img)])%list) /\
    (truthy api_key = false ->
     result = "Error: API Key not provided." /\ w' = w).
Proof.
  destruct (full_prompt prompt is_detailed appliances_info) as [p|e] eqn:F.
  - eexists. eexists. split; [exact (analyze_run _ _ _ _ _ _ _ w F)|].
    unfold analysis_result.
    destruct (truthy api_key); repeat split; try discriminate; cbn.
    + right. now exists p.
    + now left.
  - unfold analyze_image_with_gemini, try_except, bind, lift. rewrite F.
    destruct (truthy api_key); cbn; eexists; eexists;
      (split; [reflexivity|]); repeat split; try discriminate; now left.
Qed.

(** Without a credential neither page calls the remote model, whatever is
    uploaded, typed or pressed. *)
Theorem pages_make_no_call_without_credential clock (api_key : string)
    (model : string -> image -> reply) (uploaded_file : option image)
    (appliance_info : string) (clicked : bool) (w : world) :
  truthy api_key = false ->
  remote_calls
    (snd (simple_audit_page clock api_key model uploaded_file clicked w))
    = remote_calls w /\
  remote_calls
    (snd (detailed_audit_page clock api_key model uploaded_file
            appliance_info clicked w))
    = remote_calls w.
Proof.
  intros K. split.
  - destruct uploaded_file as [img|], clicked; try reflexivity.
    rewrite simple_audit_page_run, K.
    destruct (truthy (analysis_result _ _ _ _));
      [rewrite persist_keeps_calls|]; reflexivity.
  - destruct uploaded_file as [img|], clicked; try reflexivity.
    destruct (truthy appliance_info) eqn:T;
      [|unfold detailed_audit_page; now rewrite T].
    rewrite (detailed_audit_page_run _ _ _ _ _ _ T), K.
    destruct (truthy (analysis_result _ _ _ _));
      [rewrite persist_keeps_calls|]; reflexivity.
Qed.

Lemma pages_make_no_call_without_credential_witness :
  remote_calls
    (snd (simple_audit_page sample_clock EmptyString keyed_model
            (Some "bill.png") true fresh_world)) = [] /\
  remote_calls
    (snd (detailed_audit_page sample_clock EmptyString keyed_model
            (Some "bill.png") "1 Refrigerator (Class A)" true fresh_world))
    = [].
Proof.
  apply (pages_make_no_call_without_credential sample_clock EmptyString
           keyed_model (Some "bill.png") "1 Refrigerator (Class A)" true
           fresh_world).
  reflexivity.
Defined.

Lemma persist_returns clock report_data body w h :
  stored_sequence (history_json w) = Some h ->
  (save_report_to_history clock report_data ;;; emit (Success body)) w
    = (Returned tt,
       mkWorld (Holds (VList (report_entry (clock (ticks w))
                                (clock (S (ticks w))) report_data :: h)))
               (S (S (ticks w))) (remote_calls w)
               (page_output w ++ [Success body])).
Proof.
  intros E. now rewrite (bind_returned _ _ _ _ _ (save_on_sequence _ _ _ _ E)).
Qed.

Lemma persist_raises clock report_data body w :
  stored_sequence (history_json w) = None ->
  exists msg,
    (save_report_to_history clock report_data ;;; emit (Success body)) w
      = (Raised (AttributeError msg),
         mkWorld (history_json w) (S (S (ticks w))) (remote_calls w)
                 (page_output w)).
Proof.
  intros E.
  destruct (save_on_non_sequence clock report_data w E) as (v & msg & _ & S).
  exists msg. unfold bind. now rewrite S.
Qed.

Lemma cons_differs {A} (x : A) (l : list A) : x :: l <> l.
Proof.
  intros E. apply (f_equal (@length A)) in E. simpl in E.
  now apply (Nat.neq_succ_diag_l (length l)).
Qed.

Lemma grown_file_differs e h f :
  stored_sequence f = Some h -> Holds (VList (e :: h)) <> f.
Proof.
  intros S E. subst f. simpl in S. injection S as S.
  exact (cons_differs e h S).
Qed.

Lemma audit_tail_on_sequence clock report_data heading result body p img
    api_key w h :
  stored_sequence (history_json w) = Some h ->
  (if truthy result
   then (save_report_to_history clock report_data ;;; emit (Success body))
          (shown [Markdown heading; Markdown result]
                 (if truthy api_key : bool then log_call p img w else w))
   else (Returned tt,
         shown [Markdown heading; Markdown result]
               (if truthy api_key : bool then log_call p img w else w)))
  = (Returned tt,
     mkWorld
       (if truthy result
        then Holds (VList (report_entry (clock (ticks w)) (clock (S (ticks w)))
                                        report_data :: h))
        else history_json w)
       (if truthy result then S (S (ticks w)) else ticks w)
       (if truthy api_key then remote_calls w ++ [(p, img)] else remote_calls w)
       (page_output w ++ [Markdown heading; Markdown result]
                      ++ (if truthy result then [Success body] else []))).
Proof.
  intros E. destruct (truthy result).
  - rewrite (persist_returns _ _ _ _ h);
      [|now destruct (truthy api_key)].
    destruct (truthy api_key); cbn; now rewrite <- app_assoc.
  - destruct (truthy api_key); cbn; reflexivity.
Qed.

(** On a stored sequence, an audit run that got a text shows the report
    heading and the text, then the success message exactly when the text is
    not empty, which is exactly when the file has changed. *)
Theorem audit_shows_success_exactly_when_saved clock (api_key : string)
    (model : string -> image -> reply) (img : image)
    (appliance_info : string) (w : world) (h : list value) :
  stored_sequence (history_json w) = Some h ->
  truthy appliance_info = true ->
  exists ps pd ws wd,
    full_prompt simple_prompt false None = Returned ps /\
    full_prompt detailed_prompt true (Some appliance_info) = Returned pd /\
    let simple_result := analysis_result api_key model ps img in
    let detailed_result := analysis_result api_key model pd img in
    simple_audit_page clock api_key model (Some img) true w
      = (Returned tt, ws) /\
    page_output ws
      = (page_output w
         ++ [Markdown "### 📊 Report"; Markdown simple_result]
         ++ (if truthy simple_result
             then [Success "Report saved to History!"] else []))%list /\
    (truthy simple_result = true <-> history_json ws <> history_json w) /\
    detailed_audit_page clock api_key model (Some img) appliance_info true w
      = (Returned tt, wd) /\
    page_output wd
      = (page_output w
         ++ [Markdown "### 📊 Detailed Report"; Markdown detailed_result]
         ++ (if truthy detailed_result
             then [Success "Detailed Report saved to History!"] else []))%list /\
    (truthy detailed_result = true <-> history_json wd <> history_json w).
Proof.
  intros E T. eexists. eexists. eexists. eexists.
  split; [apply simple_prompt_text|].
  split; [apply detailed_prompt_text|].
  cbv zeta.
  rewrite simple_audit_page_run, (detailed_audit_page_run _ _ _ _ _ _ T).
  cbv zeta. rewrite !(audit_tail_on_sequence _ _ _ _ _ _ _ _ _ h E).
  split; [reflexivity|]. split; [reflexivity|]. split.
  { cbn [history_json].
    destruct (truthy (analysis_result _ _ _ _)).
    - split; [intros _; apply (grown_file_differs _ h _ E) | reflexivity].
    - split; [discriminate | intros N; now elim N]. }
  split; [reflexivity|]. split; [reflexivity|].
  cbn [history_json].
  destruct (truthy (analysis_result _ _ _ _)).
  - split; [intros _; apply (grown_file_differs _ h _ E) | reflexivity].
  - split; [discriminate | intros N; now elim N].
Qed.

Lemma audit_shows_success_exactly_when_saved_witness :
  exists ws,
    simple_audit_page sample_clock "key" keyed_model (Some "bill.png") true
                      fresh_world
      = (Returned tt, ws) /\
    page_output ws
      = [ Markdown "### 📊 Report"; Markdown "REPORT-X";
          Success "Report saved to History!" ].
Proof.
  destruct (audit_shows_success_exactly_when_saved sample_clock "key"
              keyed_model "bill.png" "1 Refrigerator (Class A)" fresh_world
              [] eq_refl eq_refl)
    as (ps & pd & ws & wd & Ps & _ & R & O & _).
  injection Ps as <-. exists ws. split; [exact R | exact O].
Defined.

(** When [history.json] holds JSON that is not an array, an audit run that
    got a non-empty text ends in [AttributeError]: the remote model has been
    called and the text is on the page, but nothing is saved and no success
    message is shown. *)
Theorem audit_run_fails_on_non_array_history clock (api_key : string)
    (model : string -> image -> reply) (img : image)
    (appliance_info : string) (w : world) :
  stored_sequence (history_json w) = None ->
  truthy appliance_info = true ->
  exists ps pd,
    full_prompt simple_prompt false None = Returned ps /\
    full_prompt detailed_prompt true (Some appliance_info) = Returned pd /\
    let simple_result := analysis_result api_key model ps img in
    let detailed_result := analysis_result api_key model pd img in
    (truthy simple_result = true ->
     exists msg ws,
       simple_audit_page clock api_key model (Some img) true w
         = (Raised (AttributeError msg), ws) /\
       history_json ws = history_json w /\
       remote_calls ws
         = (if truthy api_key then remote_calls w ++ [(ps, img)]
            else remote_calls w)%list /\
       page_output ws
         = (page_output w
            ++ [Markdown "### 📊 Report"; Markdown simple_result])%list) /\
    (truthy detailed_result = true ->
     exists msg wd,
       detailed_audit_page clock api_key model (Some img) appliance_info true w
         = (Raised (AttributeError msg), wd) /\
       history_json wd = history_json w /\
       remote_calls wd
         = (if truthy api_key then remote_calls w ++ [(pd, img)]
            else remote_calls w)%list /\
       page_output wd
         = (page_output w
            ++ [Markdown "### 📊 Detailed Report";
                Markdown detailed_result])%list).
Proof.
  intros E T. eexists. eexists.
  split; [apply simple_prompt_text|].
  split; [apply detailed_prompt_text|].
  cbv zeta. split; intros R.
  - rewrite simple_audit_page_run. cbv zeta. rewrite R.
    match goal with
    | |- context [(save_report_to_history ?c ?d ;;; emit (Success ?b)) ?w1] =>
        destruct (persist_raises c d b w1) as [msg P]
    end.
    { now destruct (truthy api_key). }
    exists msg. eexists. split; [exact P|].
    destruct (truthy api_key); cbn; repeat split.
  - rewrite (detailed_audit_page_run _ _ _ _ _ _ T). cbv zeta. rewrite R.
    match goal with
    | |- context [(save_report_to_history ?c ?d ;;; emit (Success ?b)) ?w1] =>
        destruct (persist_raises c d b w1) as [msg P]
    end.
    { now destruct (truthy api_key). }
    exists msg. eexists. split; [exact P|].
    destruct (truthy api_key); cbn; repeat split.
Qed.

Lemma audit_run_fails_on_non_array_history_witness :
  exists msg ws,
    simple_audit_page sample_clock "key" keyed_model (Some "bill.png") true
                      (with_file (Holds (VDict [])) fresh_world)
      = (Raised (AttributeError msg), ws) /\
    history_json ws = Holds (VDict []) /\
    page_output ws = [Markdown "### 📊 Report"; Markdown "REPORT-X"].
Proof.
  destruct (audit_run_fails_on_non_array_history sample_clock "key"
              keyed_model "bill.png" "1 Refrigerator (Class A)"
              (with_file (Holds (VDict [])) fresh_world) eq_refl eq_refl)
    as (ps & pd & Ps & _ & S & _).
  injection Ps as <-.
  destruct (S eq_refl) as (msg & ws & R & F & _ & O).
  exists msg, ws. split; [exact R|]. split; [exact F | exact O].
Defined.

(** ** The History page *)

Lemma eq_value_str v s : negb (eq_value v (VStr s)) = ne_str v s.
Proof. now destruct v. Qed.

Lemma keep_unequal_ids_str s items :
  keep_unequal_ids (VStr s) items = keep_other_ids s items.
Proof.
  induction items as [|item rest IH]; simpl; [reflexivity|].
  destruct (getitem item "id") as [v|e]; [|reflexivity].
  now rewrite IH, eq_value_str.
Qed.

Lemma delete_report_value_str s w :
  delete_report_value (VStr s) w = delete_report s w.
Proof.
  unfold delete_report_value, delete_report, bind, lift.
  destruct (load_history w) as [[v|e] w1]; [|reflexivity].
  destruct (iter v) as [items|e]; [|reflexivity].
  now rewrite keep_unequal_ids_str.
Qed.

Lemma delete_report_value_keeps report_id w :
  remote_calls (snd (delete_report_value report_id w)) = remote_calls w /\
  ticks (snd (delete_report_value report_id w)) = ticks w /\
  page_output (snd (delete_report_value report_id w)) = page_output w.
Proof.
  destruct (load_history_returns w) as [v L].
  unfold delete_report_value. rewrite (bind_returned _ _ _ _ _ L).
  unfold bind, lift. destruct (iter v) as [items|e]; [|now cbn].
  destruct (keep_unequal_ids report_id items); now cbn.
Qed.

Lemma shown_shown es1 es2 w :
  shown es2 (shown es1 w) = shown (es1 ++ es2) w.
Proof. unfold shown. cbn. now rewrite app_assoc. Qed.

Lemma shown_nil w : shown [] w = w.
Proof. unfold shown. rewrite app_nil_r. now destruct w. Qed.

Lemma existsb_eqb_false key keys :
  ~ In key keys -> existsb (String.eqb key) keys = false.
Proof.
  intros N. destruct (existsb (String.eqb key) keys) eqn:X; [|reflexivity].
  apply existsb_exists in X. destruct X as (k & I & Q).
  apply String.eqb_eq in Q. now subst k.
Qed.


(** One turn of the loop on an entry that has its five fields. *)
Lemma history_rows_step repr pressed e rest keys w :
  renders e ->
  history_rows repr pressed (e :: rest) keys w
    = if existsb (String.eqb (button_key repr e)) keys
      then (Returned (DuplicateWidgetID (button_key repr e)),
            shown (row repr e) w)
      else if button pressed (button_key repr e)
      then (delete_report_value (field "id" e) ;;; ret Rerun)
             (shown (row repr e) w)
      else history_rows repr pressed rest (button_key repr e :: keys)
                        (shown (row repr e) w).
Proof.
  intros ([i Hi] & [t Ht] & [d Hd] & [s Hs] & [f Hf]).
  unfold button_key, row, field. cbn [history_rows].
  rewrite Hi, Ht, Hd, Hs, Hf. unfold bind, lift, emit.
  cbn [history_json ticks remote_calls page_output].
  replace (mkWorld _ _ _ _) with
    (shown [ Markdown ("**Summary:** " ++ text repr s); Markdown "---";
             Markdown (text repr f) ] w)
    by (unfold shown; now rewrite <- !app_assoc).
  destruct (existsb _ keys); [reflexivity|].
  now destruct (button pressed _).
Qed.

Lemma history_page_on_list repr pressed w e h :
  history_json w = Holds (VList (e :: h)) ->
  history_page repr pressed w = history_rows repr pressed (e :: h) [] w.
Proof.
  intros E. unfold history_page.
  now rewrite (bind_returned _ _ _ _ _ (load_history_holds w _ E)).
Qed.

Lemma rows_listing repr : forall h keys w,
  Forall renders h ->
  NoDup (map (button_key repr) h) ->
  (forall k, In k (map (button_key repr) h) -> ~ In k keys) ->
  history_rows repr None h keys w
    = (Returned Completed, shown (flat_map (row repr) h) w).
Proof.
  induction h as [|e h IH]; intros keys w R N D.
  - cbn. now rewrite shown_nil.
  - inversion R as [|? ? Re Rh]; subst. inversion N as [|? ? Ne Nh]; subst.
    rewrite (history_rows_step _ _ _ _ _ _ Re).
    rewrite existsb_eqb_false by (apply D; now left).
    cbn [button]. rewrite IH; [now rewrite shown_shown | exact Rh | exact Nh |].
    intros k I [<- | K]; [exact (Ne I)|].
    apply (D k); [now right | exact K].
Qed.

Lemma rows_press repr k : forall before e after keys w,
  Forall renders (before ++ e :: after) ->
  NoDup (map (button_key repr) (before ++ e :: after)) ->
  (forall x, In x (map (button_key repr) (before ++ e :: after)) ->
             ~ In x keys) ->
  button_key repr e = k ->
  history_rows repr (Some k) (before ++ e :: after) keys w
    = (delete_report_value (field "id" e) ;;; ret Rerun)
        (shown (flat_map (row repr) (before ++ [e])) w).
Proof.
  induction before as [|b before IH]; intros e after keys w R N D K.
  - cbn [app] in *. inversion R as [|? ? Re Rh]; subst.
    rewrite (history_rows_step _ _ _ _ _ _ Re).
    rewrite existsb_eqb_false by (apply D; now left).
    cbn [button]. rewrite String.eqb_refl. cbn [flat_map].
    now rewrite app_nil_r.
  - cbn [app] in *. inversion R as [|? ? Rb Rh]; subst.
    inversion N as [|? ? Nb Nh]; subst.
    rewrite (history_rows_step _ _ _ _ _ _ Rb).
    rewrite existsb_eqb_false by (apply D; now left).
    cbn [button].
    assert (Q : String.eqb (button_key repr e) (button_key repr b) = false).
    { apply String.eqb_neq. intros Q. apply Nb. rewrite <- Q.
      rewrite map_app. apply in_or_app. right. now left. }
    rewrite Q. rewrite (IH e after); try assumption; try reflexivity.
    + cbn [flat_map]. now rewrite shown_shown.
    + intros x I [<- | X]; [exact (Nb I)|].
      apply (D x); [now right | exact X].
Qed.


Lemma matching_entry_has_key repr s x :
  matches s x = true -> button_key repr x = "del_" ++ s.
Proof.
  unfold matches, button_key, field.
  destruct (getitem x "id") as [v|]; [|discriminate].
  destruct v; cbn; try discriminate.
  intros E. apply negb_true_iff, negb_false_iff, String.eqb_eq in E.
  now subst.
Qed.

Lemma others_without_key repr s l :
  ~ In ("del_" ++ s) (map (button_key repr) l) -> others s l = l.
Proof.
  intros N. apply others_absent. unfold matching.
  induction l as [|x l IH]; [reflexivity|]. cbn [filter].
  destruct (matches s x) eqn:Mx.
  - elim N. left. now apply matching_entry_has_key.
  - apply IH. intros I. apply N. now right.
Qed.

Lemma renders_has_id e : renders e -> has_id e.
Proof. now intros [H _]. Qed.

Lemma rows_keep repr pressed : forall reports keys w,
  remote_calls (snd (history_rows repr pressed reports keys w))
    = remote_calls w /\
  ticks (snd (history_rows repr pressed reports keys w)) = ticks w /\
  (pressed = None ->
   history_json (snd (history_rows repr pressed reports keys w))
     = history_json w).
Proof.
  induction reports as [|r rest IH]; intros keys w; [now cbn|].
  cbn [history_rows]. unfold bind, lift, emit.
  destruct (getitem r "type"); [|now cbn].
  destruct (getitem r "date"); [|now cbn].
  destruct (getitem r "summary"); [|now cbn].
  destruct (getitem r "full_report"); [|now cbn].
  destruct (getitem r "id") as [i|]; [|now cbn].
  destruct (existsb _ keys); [now cbn|].
  destruct (button pressed _) eqn:B.
  - match goal with
    | |- context [delete_report_value i ?w1] =>
        destruct (delete_report_value_keeps i w1) as (C & T & _);
        destruct (delete_report_value i w1) as [[[]|e] w2]
    end; cbn in *; (repeat split; try assumption);
      intros ->; discriminate B.
  - match goal with
    | |- context [history_rows repr pressed rest ?ks ?w1] =>
        destruct (IH ks w1) as (C & T & F)
    end.
    cbn in *. repeat split; assumption.
Qed.

(** The History page reads the history and may delete from it, nothing more:
    whatever the file holds and whichever button is pressed, a run never calls
    the remote model and never reads the clock, and a run with no button
    pressed leaves the file as it was. *)
Theorem history_page_only_reads_unless_pressed (repr : value -> string)
    (pressed : option string) (w : world) :
  remote_calls (snd (history_page repr pressed w)) = remote_calls w /\
  ticks (snd (history_page repr pressed w)) = ticks w /\
  (pressed = None ->
   history_json (snd (history_page repr pressed w)) = history_json w).
Proof.
  destruct (load_history_returns w) as [v L].
  unfold history_page. rewrite (bind_returned _ _ _ _ _ L).
  destruct (falsy v); [now cbn|].
  unfold bind at 1, lift at 1.
  destruct (iter v) as [reports|e]; [|now cbn].
  apply rows_keep.
Qed.

(** On a missing or unreadable file, and on a file holding an empty or
    otherwise falsy value, the History page shows the note that there are no
    reports, and nothing else happens. *)
Theorem history_page_without_reports (repr : value -> string)
    (pressed : option string) (w : world) :
  stored_sequence (history_json w) = Some [] \/
  (exists v, history_json w = Holds v /\ falsy v = true) ->
  history_page repr pressed w
    = (Returned Completed,
       shown [Info "No reports found in history yet."] w).
Proof.
  intros C.
  assert (L : exists v, load_history w = (Returned v, w) /\ falsy v = true).
  { destruct C as [S | (v & E & F)].
    - exists (VList []). split; [|reflexivity].
      destruct (history_json w) as [| |v] eqn:E.
      + apply load_history_no_file. now left.
      + apply load_history_no_file. now right.
      + destruct v; try discriminate. injection S as ->.
        now apply load_history_holds.
    - exists v. split; [now apply load_history_holds | exact F]. }
  destruct L as (v & L & F).
  unfold history_page. rewrite (bind_returned _ _ _ _ _ L), F. reflexivity.
Qed.

Lemma history_page_without_reports_witness :
  history_page sample_repr None fresh_world
    = (Returned Completed,
       shown [Info "No reports found in history yet."] fresh_world).
Proof.
  apply (history_page_without_reports sample_repr None fresh_world).
  left. reflexivity.
Defined.

(** With no button pressed, a history whose entries have their five fields
    and pairwise distinct button keys is listed in stored order, newest
    first: for each entry its summary line, a rule and its report. *)
Theorem history_page_lists_entries_in_stored_order (repr : value -> string)
    (w : world) (h : list value) :
  history_json w = Holds (VList h) ->
  Forall renders h ->
  NoDup (map (button_key repr) h) ->
  h <> [] ->
  history_page repr None w
    = (Returned Completed, shown (flat_map (row repr) h) w).
Proof.
  intros E R N Z. destruct h as [|e h]; [now elim Z|].
  rewrite (history_page_on_list _ _ _ _ _ E).
  apply rows_listing; try assumption. intros k _ [].
Qed.

(** Pressing the Delete button of an entry whose id is a string removes that
    entry and no other, when the entries have their five fields and pairwise
    distinct button keys: the run shows the rows down to the entry, rewrites
    the file without it, and asks for a rerun. *)
Theorem history_page_delete_removes_the_row (repr : value -> string)
    (w : world) (before after : list value) (e : value) (s : string) :
  history_json w = Holds (VList (before ++ e :: after)) ->
  Forall renders (before ++ e :: after) ->
  NoDup (map (button_key repr) (before ++ e :: after)) ->
  getitem e "id" = Returned (VStr s) ->
  history_page repr (Some (button_key repr e)) w
    = (Returned Rerun,
       with_file (Holds (VList (before ++ after)))
                 (shown (flat_map (row repr) (before ++ [e])) w)).
Proof.
  intros E R N I.
  assert (K : button_key repr e = "del_" ++ s)
    by (unfold button_key, field; now rewrite I).
  assert (F : field "id" e = VStr s) by (unfold field; now rewrite I).
  assert (O : others s (before ++ e :: after) = (before ++ after)%list).
  { rewrite map_app in N. cbn [map] in N.
    pose proof (NoDup_remove_2 _ _ _ N) as A. rewrite K in A.
    unfold others. rewrite filter_app. cbn [filter].
    replace (matches s e) with true by (unfold matches; rewrite I; cbn;
                                        now rewrite String.eqb_refl).
    cbn [negb].
    fold (others s before). fold (others s after).
    rewrite !(others_without_key repr); [reflexivity | |];
      intros X; apply A; apply in_or_app; [now right | now left]. }
  destruct before as [|b before].
  - cbn [app] in *. rewrite (history_page_on_list _ _ _ _ _ E).
    rewrite (rows_press repr (button_key repr e) [] e after);
      try assumption; try reflexivity; [|intros x _ []].
    rewrite F. unfold bind. rewrite delete_report_value_str.
    rewrite (delete_report_on_sequence s _ (e :: after));
      [| exact E | exact (Forall_impl _ renders_has_id R)].
    cbn [app] in O. now rewrite O.
  - cbn [app] in E. rewrite (history_page_on_list _ _ _ _ _ E).
    rewrite (rows_press repr (button_key repr e) (b :: before) e after);
      try assumption; try reflexivity; [|intros x _ []].
    rewrite F. unfold bind. rewrite delete_report_value_str.
    rewrite (delete_report_on_sequence s _ ((b :: before) ++ e :: after));
      [| exact E | exact (Forall_impl _ renders_has_id R)].
    now rewrite O.
Qed.


Lemma history_page_lists_entries_in_stored_order_witness :
  history_page sample_repr None two_reports_world
    = (Returned Completed,
       shown [ Markdown "**Summary:** second"; Markdown "---";
               Markdown "REPORT-Y";
               Markdown "**Summary:** first"; Markdown "---";
               Markdown "REPORT-X" ] two_reports_world).
Proof.
  apply (history_page_lists_entries_in_stored_order sample_repr
           two_reports_world
           [ report_entry (ticking_clock 2) (ticking_clock 3)
               [ ("type", VStr "Detailed Audit"); ("summary", VStr "second");
                 ("full_report", VStr "REPORT-Y") ];
             report_entry (ticking_clock 0) (ticking_clock 1)
               [ ("type", VStr "Simple Audit"); ("summary", VStr "first");
                 ("full_report", VStr "REPORT-X") ] ]).
  - reflexivity.
  - repeat constructor; eexists; reflexivity.
  - constructor; [intros [Q | []]; discriminate Q|].
    constructor; [intros [] | constructor].
  - discriminate.
Defined.

Lemma history_page_delete_removes_the_row_witness :
  history_page sample_repr (Some "del_20240307090500") two_reports_world
    = (Returned Rerun,
       with_file
         (Holds (VList [ report_entry (ticking_clock 2) (ticking_clock 3)
                           [ ("type", VStr "Detailed Audit");
                             ("summary", VStr "second");
                             ("full_report", VStr "REPORT-Y") ] ]))
         (shown [ Markdown "**Summary:** second"; Markdown "---";
                  Markdown "REPORT-Y";
                  Markdown "**Summary:** first"; Markdown "---";
                  Markdown "REPORT-X" ] two_reports_world)).
Proof.
  apply (history_page_delete_removes_the_row sample_repr two_reports_world
           [ report_entry (ticking_clock 2) (ticking_clock 3)
               [ ("type", VStr "Detailed Audit"); ("summary", VStr "second");
                 ("full_report", VStr "REPORT-Y") ] ]
           []
           (report_entry (ticking_clock 0) (ticking_clock 1)
              [ ("type", VStr "Simple Audit"); ("summary", VStr "first");
                ("full_report", VStr "REPORT-X") ])
           "20240307090500").
  - reflexivity.
  - repeat constructor; eexists; reflexivity.
  - constructor; [intros [Q | []]; discriminate Q|].
    constructor; [intros [] | constructor].
  - reflexivity.
Defined.






Lemma rows_raise repr x : forall before e after keys w,
  Forall renders before ->
  NoDup (map (button_key repr) before) ->
  (forall k, In k (map (button_key repr) before) -> ~ In k keys) ->
  getitem e "type" = Raised x ->
  history_rows repr None (before ++ e :: after) keys w
    = (Raised x, shown (flat_map (row repr) before) w).
Proof.
  induction before as [|b before IH]; intros e after keys w R N D T.
  - cbn [app flat_map history_rows]. unfold bind, lift. rewrite T.
    now rewrite shown_nil.
  - cbn [app]. inversion R as [|? ? Rb Rh]; subst.
    inversion N as [|? ? Nb Nh]; subst.
    rewrite (history_rows_step _ _ _ _ _ _ Rb).
    rewrite existsb_eqb_false by (apply D; now left).
    cbn [button]. rewrite (IH e after); try assumption.
    + cbn [flat_map]. now rewrite shown_shown.
    + intros k I [<- | K]; [exact (Nb I)|].
      apply (D k); [now right | exact K].
Qed.

(** The listing stops at the first entry from which no type can be read, an
    object without that field or a value that is no object: the rows of the
    entries before it are shown, the error is raised, and the file is left as
    it was. *)
Theorem history_page_stops_at_entry_without_type (repr : value -> string)
    (w : world) (before after : list value) (e : value) (x : exn) :
  history_json w = Holds (VList (before ++ e :: after)) ->
  Forall renders before ->
  NoDup (map (button_key repr) before) ->
  getitem e "type" = Raised x ->
  history_page repr None w
    = (Raised x, shown (flat_map (row repr) before) w).
Proof.
  intros E R N T.
  destruct before as [|b before].
  - cbn [app] in E. rewrite (history_page_on_list _ _ _ _ _ E).
    apply (rows_raise repr x [] e after); try assumption. intros k [].
  - cbn [app] in E. rewrite (history_page_on_list _ _ _ _ _ E).
    apply (rows_raise repr x (b :: before) e after); try assumption.
    intros k _ [].
Qed.

Lemma history_page_stops_at_entry_without_type_witness :
  history_page sample_repr None
    (with_file (Holds (VList [VDict [("id", VStr "20240307090502")]]))
               fresh_world)
  = (Raised (KeyError "type"),
     shown []
       (with_file (Holds (VList [VDict [("id", VStr "20240307090502")]]))
                  fresh_world)).
Proof.
  apply (history_page_stops_at_entry_without_type sample_repr
           (with_file (Holds (VList [VDict [("id", VStr "20240307090502")]]))
                      fresh_world)
           [] [] (VDict [("id", VStr "20240307090502")]) (KeyError "type")).
  - reflexivity.
  - constructor.
  - constructor.
  - reflexivity.
Defined.

Lemma analyze_image_with_gemini_never_raises_witness :
  exists result w',
    analyze_image_with_gemini EmptyString keyed_model "bill.png"
                              detailed_prompt true None fresh_world
      = (Returned result, w') /\
    result = "Error: API Key not provided." /\ w' = fresh_world.
Proof.
  destruct (analyze_image_with_gemini_never_raises EmptyString keyed_model
              "bill.png" detailed_prompt true None fresh_world)
    as (result & w' & R & _ & _ & _ & _ & K).
  exists result, w'. split; [exact R | exact (K eq_refl)].
Defined.

Lemma history_page_only_reads_unless_pressed_witness :
  history_json (snd (history_page sample_repr None two_reports_world))
    = history_json two_reports_world.
Proof.
  destruct (history_page_only_reads_unless_pressed sample_repr None
              two_reports_world) as (_ & _ & F).
  exact (F eq_refl).
Defined.
